(** * Warehouse Wise Stock Balance Cluster: the report configuration

    A shallow embedding of
    [bioprime/bioprime/report/warehouse_wise_stock_balance_cluster/warehouse_wise_stock_balance_cluster.js].

    The script is one statement,
    [frappe.query_reports["Warehouse Wise Stock Balance Cluster"] = { ... };],
    whose right-hand side is an object literal.  Two property values of
    the literal are calls into the host ([__] and
    [frappe.defaults.get_user_default]); JavaScript evaluates them while
    it builds the literal, before the assignment takes place. *)

From stdpp Require Import gmap strings list fin_maps.

#[local] Set Warnings "-register-all".

Local Open Scope Z_scope.
Local Open Scope string_scope.

(** ** JavaScript values *)

Module Js.

(** The values an object literal of this script can hold.  Numbers are
    the integer literals of the source; an object keeps its properties
    in insertion order. *)
Inductive value : Type :=
| VUndefined
| VNull
| VBool (b : bool)
| VNum (n : Z)
| VStr (s : string)
| VArr (items : list value)
| VObj (props : list (string * value)).

(** [o[k] = v] on the property list: an existing key keeps its place and
    takes the new value, a new key goes last. *)
Fixpoint set_prop (k : string) (v : value) (ps : list (string * value))
  : list (string * value) :=
  match ps with
  | [] => [(k, v)]
  | (k', v') :: ps' =>
      if String.eqb k k' then (k, v) :: ps' else (k', v') :: set_prop k v ps'
  end.

(** An object literal [{ k1: v1, ..., kn: vn }] defines its properties
    from left to right. *)
Definition literal (ps : list (string * value)) : value :=
  VObj (fold_left (fun acc kv => set_prop (fst kv) (snd kv) acc) ps []).

Fixpoint assoc (k : string) (ps : list (string * value)) : option value :=
  match ps with
  | [] => None
  | (k', v) :: ps' => if String.eqb k k' then Some v else assoc k ps'
  end.

(** The own property [k] of [o], when [o] is an object that has it. *)
Definition own (k : string) (o : value) : option value :=
  match o with
  | VObj ps => assoc k ps
  | _ => None
  end.

(** [o.hasOwnProperty(k)] *)
Definition has_own (k : string) (o : value) : bool :=
  match own k o with Some _ => true | None => false end.

(** [o[k]]: reading a property that is absent gives [undefined]. *)
Definition get (k : string) (o : value) : value :=
  match own k o with Some v => v | None => VUndefined end.

(** [Object.keys(o)] *)
Definition keys (o : value) : list string :=
  match o with
  | VObj ps => map fst ps
  | _ => []
  end.

(** The elements of an array, in index order. *)
Definition elements (a : value) : list value :=
  match a with
  | VArr xs => xs
  | _ => []
  end.

(** [Boolean(v)], the test behind [if (v)]. *)
Definition truthy (v : value) : bool :=
  match v with
  | VUndefined | VNull => false
  | VBool b => b
  | VNum n => negb (n =? 0)%Z
  | VStr s => negb (String.eqb s EmptyString)
  | VArr _ | VObj _ => true
  end.

End Js.

Import Js.

(** ** The host *)

(** What the script touches of the host page: the translation function
    [__], the session lookup [frappe.defaults.get_user_default], and the
    registry object [frappe.query_reports].  The two functions are not
    defined in this repository: they are taken as they come, as lookups
    that answer from the state of the session and leave the registry
    alone.  The registry is read by name: the map keeps what each name
    holds and not the order in which the names came in. *)
Record host : Type := Host {
  translate : string -> value;
  get_user_default : string -> value;
  query_reports : gmap string value
}.

(** ** The script *)

Definition report_name : string := "Warehouse Wise Stock Balance Cluster".

Definition company_filter (h : host) : value :=
  literal
    [ ("fieldname", VStr "company");
      ("label", translate h "Company");
      ("fieldtype", VStr "Link");
      ("options", VStr "Company");
      ("reqd", VNum 1);
      ("default", get_user_default h "Company") ].

Definition show_disabled_warehouses_filter (h : host) : value :=
  literal
    [ ("fieldname", VStr "show_disabled_warehouses");
      ("label", translate h "Show Disabled Warehouses");
      ("fieldtype", VStr "Check");
      ("default", VNum 0) ].

(** The right-hand side of the assignment, evaluated in host [h]. *)
Definition report_config (h : host) : value :=
  literal
    [ ("filters", VArr [company_filter h; show_disabled_warehouses_filter h]);
      ("initial_depth", VNum 3);
      ("tree", VBool true);
      ("parent_field", VStr "parent_warehouse");
      ("name_field", VStr "warehouse") ].

(** [frappe.query_reports[name] = cfg] *)
Definition register (name : string) (cfg : value) (h : host) : host :=
  {| translate := translate h;
     get_user_default := get_user_default h;
     query_reports := <[name := cfg]> (query_reports h) |}.

(** The whole statement: build the literal in [h], then assign. *)
Definition load_module (h : host) : host :=
  register report_name (report_config h) h.

(** [frappe.query_reports[name]] as the host reads it. *)
Definition read_report (name : string) (h : host) : option value :=
  query_reports h !! name.

(** ** Running the script *)






(** ** What other code on the page can do to the registry *)






(** ** What the host reads of the registered configuration *)

Definition filters_of (cfg : value) : list value :=
  elements (get "filters" cfg).

(** [frappe.query_reports[report_name].filters], as a list. *)
Definition registered_filters (h : host) : list value :=
  match read_report report_name h with
  | Some cfg => filters_of cfg
  | None => []
  end.

(** [frappe.query_reports[report_name].filters[i][k]] *)
Definition filter_attr (i : nat) (k : string) (h : host) : option value :=
  get k <$> registered_filters h !! i.

Definition company_default_at (h : host) : option value :=
  filter_attr 0 "default" h.

Definition labels_at (h : host) : list value :=
  map (get "label") (registered_filters h).

(** ** Two sessions *)

(** A page with an empty registry, no translations, and "Alpha Ltd" as
    the user's default company. *)
Definition session_a : host :=
  {| translate := VStr;
     get_user_default :=
       fun k => if String.eqb k "Company" then VStr "Alpha Ltd" else VUndefined;
     query_reports := ∅ |}.

(** The same page later: the registry is as the script left it, the
    language is now German and the default company "Beta Ltd". *)
Definition session_b : host :=
  {| translate :=
       fun s => if String.eqb s "Company" then VStr "Firma"
                else if String.eqb s "Show Disabled Warehouses"
                     then VStr "Deaktivierte Lager anzeigen"
                     else VStr s;
     get_user_default :=
       fun k => if String.eqb k "Company" then VStr "Beta Ltd" else VUndefined;
     query_reports := query_reports (load_module session_a) |}.

(** ** The properties as the specification words them, where the code differs *)

(** Filters as listed: two entries, the second with [reqd] equal to 0. *)
Definition filters_as_listed (fs : list value) : Prop :=
  ∃ f1 f2,
    fs = [f1; f2]
    ∧ get "fieldname" f1 = VStr "company"
    ∧ get "fieldtype" f1 = VStr "Link"
    ∧ get "options" f1 = VStr "Company"
    ∧ get "reqd" f1 = VNum 1
    ∧ get "fieldname" f2 = VStr "show_disabled_warehouses"
    ∧ get "fieldtype" f2 = VStr "Check"
    ∧ get "reqd" f2 = VNum 0
    ∧ get "default" f2 = VNum 0.

(** The default of the company filter is looked up when the report is
    rendered: what the host reads in [h'] is the user's default in [h']. *)
Definition default_resolved_at_render (h' : host) : Prop :=
  company_default_at h' = Some (get_user_default h' "Company").

(** The labels are looked up when the report is rendered. *)
Definition labels_resolved_at_render (h' : host) : Prop :=
  labels_at h' =
    [translate h' "Company"; translate h' "Show Disabled Warehouses"].


(** * Lemmas shared by the properties *)

Lemma load_module_registers (h : host) :
  read_report report_name (load_module h) = Some (report_config h).
Proof. unfold read_report, load_module, register; simpl. apply lookup_insert_eq. Qed.

Lemma registered_filters_load (h : host) :
  registered_filters (load_module h) =
    [company_filter h; show_disabled_warehouses_filter h].
Proof. unfold registered_filters. now rewrite load_module_registers. Qed.

Lemma registered_filters_kept (h h' : host) :
  read_report report_name h' = read_report report_name (load_module h) ->
  registered_filters h' = [company_filter h; show_disabled_warehouses_filter h].
Proof.
  intros Hkept. rewrite <- registered_filters_load.
  unfold registered_filters. now rewrite Hkept.
Qed.

Example session_b_registry :
  read_report report_name session_b = Some (report_config session_a).
Proof. vm_compute. reflexivity. Qed.







(** * The filters *)

(** C1, as the code has it: the registered configuration lists exactly two
    filters, in this order.  The first is "company", of type Link, with
    options "Company" (a non-empty string) and reqd 1.  The second is
    "show_disabled_warehouses", of type Check, with default 0; it has no
    reqd property, so reading reqd gives undefined, which is falsy. *)
Theorem filters_exact (h : host) :
  ∃ f1 f2,
    registered_filters (load_module h) = [f1; f2]
    ∧ get "fieldname" f1 = VStr "company"
    ∧ get "fieldtype" f1 = VStr "Link"
    ∧ get "options" f1 = VStr "Company"
    ∧ "Company" ≠ EmptyString
    ∧ get "reqd" f1 = VNum 1
    ∧ get "fieldname" f2 = VStr "show_disabled_warehouses"
    ∧ get "fieldtype" f2 = VStr "Check"
    ∧ own "reqd" f2 = None
    ∧ get "reqd" f2 = VUndefined
    ∧ truthy (get "reqd" f2) = false
    ∧ get "default" f2 = VNum 0.
Proof.
  exists (company_filter h), (show_disabled_warehouses_filter h).
  split; [apply registered_filters_load |].
  repeat split; discriminate.
Qed.

(** C1, as the specification words it, fails on the code: in session A the
    second registered filter does not read reqd = 0. *)
Lemma filters_as_listed_fails :
  ¬ filters_as_listed (registered_filters (load_module session_a)).
Proof.
  rewrite registered_filters_load.
  intros (f1 & f2 & Hfs & _ & _ & _ & _ & _ & _ & Hreqd & _).
  injection Hfs as _ <-. discriminate Hreqd.
Qed.

(** C3: two filters of the registered configuration at different positions
    have different fieldnames. *)
Theorem fieldnames_unique (h : host) (i j : nat) (f g : value) :
  i ≠ j ->
  registered_filters (load_module h) !! i = Some f ->
  registered_filters (load_module h) !! j = Some g ->
  get "fieldname" f ≠ get "fieldname" g.
Proof.
  rewrite registered_filters_load. intros Hij Hf Hg.
  destruct i as [|[|i]], j as [|[|j]]; simpl in Hf, Hg;
    try discriminate; try congruence;
    injection Hf as <-; injection Hg as <-; discriminate.
Qed.

Lemma fieldnames_unique_witness :
  0%nat ≠ 1%nat
  ∧ registered_filters (load_module session_a) !! 0%nat
      = Some (company_filter session_a)
  ∧ registered_filters (load_module session_a) !! 1%nat
      = Some (show_disabled_warehouses_filter session_a)
  ∧ get "fieldname" (company_filter session_a)
      ≠ get "fieldname" (show_disabled_warehouses_filter session_a).
Proof.
  split; [lia |]. split; [vm_compute; reflexivity |].
  split; [vm_compute; reflexivity |].
  apply (fieldnames_unique session_a 0 1); [lia | vm_compute; reflexivity ..].
Defined.

(** C9: in every filter of the registered configuration, a reqd property,
    where there is one, is the number 0 or the number 1, and fieldtype is
    the string "Link" or the string "Check". *)
Theorem reqd_and_fieldtype_values (h : host) (f : value) :
  f ∈ registered_filters (load_module h) ->
  (∀ v, own "reqd" f = Some v -> v = VNum 0 ∨ v = VNum 1)
  ∧ (get "fieldtype" f = VStr "Link" ∨ get "fieldtype" f = VStr "Check").
Proof.
  rewrite registered_filters_load. intros Hf.
  apply elem_of_cons in Hf as [-> | Hf];
    [| apply elem_of_cons in Hf as [-> | Hf]; [| now apply elem_of_nil in Hf]].
  - split; [intros v Hv; injection Hv as <-; now right | now left].
  - split; [intros v Hv; discriminate Hv | now right].
Qed.

Lemma reqd_and_fieldtype_values_witness :
  company_filter session_a ∈ registered_filters (load_module session_a)
  ∧ (∀ v, own "reqd" (company_filter session_a) = Some v ->
          v = VNum 0 ∨ v = VNum 1)
  ∧ (get "fieldtype" (company_filter session_a) = VStr "Link"
     ∨ get "fieldtype" (company_filter session_a) = VStr "Check").
Proof.
  assert (Hin : company_filter session_a
                  ∈ registered_filters (load_module session_a)).
  { vm_compute. apply list_elem_of_here. }
  split; [exact Hin |].
  exact (reqd_and_fieldtype_values session_a _ Hin).
Defined.

(** C10: the "show_disabled_warehouses" filter has the properties
    fieldname, label, fieldtype and default and no others: no reqd and no
    options.  Its reqd reads as undefined, which is falsy, so the field is
    optional.  Among the registered filters, a filter has an options
    property exactly when its fieldtype is "Link". *)
Theorem check_filter_attributes (h : host) (f : value) :
  f ∈ registered_filters (load_module h) ->
  registered_filters (load_module h) !! 1%nat
    = Some (show_disabled_warehouses_filter h)
  ∧ keys (show_disabled_warehouses_filter h)
    = ["fieldname"; "label"; "fieldtype"; "default"]
  ∧ has_own "reqd" (show_disabled_warehouses_filter h) = false
  ∧ has_own "options" (show_disabled_warehouses_filter h) = false
  ∧ truthy (get "reqd" (show_disabled_warehouses_filter h)) = false
  ∧ (has_own "options" f = true ↔ get "fieldtype" f = VStr "Link").
Proof.
  rewrite registered_filters_load. intros Hf.
  do 5 (split; [reflexivity |]).
  apply elem_of_cons in Hf as [-> | Hf];
    [| apply elem_of_cons in Hf as [-> | Hf]; [| now apply elem_of_nil in Hf]].
  - split; reflexivity.
  - split; discriminate.
Qed.

Lemma check_filter_attributes_witness :
  show_disabled_warehouses_filter session_a
    ∈ registered_filters (load_module session_a)
  ∧ has_own "reqd" (show_disabled_warehouses_filter session_a) = false
  ∧ (has_own "options" (show_disabled_warehouses_filter session_a) = true
     ↔ get "fieldtype" (show_disabled_warehouses_filter session_a) = VStr "Link").
Proof.
  assert (Hin : show_disabled_warehouses_filter session_a
                  ∈ registered_filters (load_module session_a)).
  { vm_compute. apply list_elem_of_further, list_elem_of_here. }
  split; [exact Hin |].
  destruct (check_filter_attributes session_a _ Hin)
    as (_ & _ & Hreqd & _ & _ & Hopt).
  split; [exact Hreqd | exact Hopt].
Defined.

(** * The tree options *)

(** C2: the registered configuration has tree = true, initial_depth = 3,
    parent_field = "parent_warehouse" and name_field = "warehouse"; its
    initial_depth is an integer that is at least 0. *)
Theorem tree_options (h : host) :
  ∃ cfg depth,
    read_report report_name (load_module h) = Some cfg
    ∧ get "tree" cfg = VBool true
    ∧ get "initial_depth" cfg = VNum depth
    ∧ depth = 3
    ∧ (0 ≤ depth)%Z
    ∧ get "parent_field" cfg = VStr "parent_warehouse"
    ∧ get "name_field" cfg = VStr "warehouse".
Proof.
  exists (report_config h), 3.
  split; [apply load_module_registers |].
  repeat split. lia.
Qed.

(** * Registration *)




(** C7: registering a configuration a second time under the same name
    gives the host that registering it once gives, and what is then read
    under the name is the configuration as it was handed in.  So it is for
    the report name of the script, and running the script a second time
    gives the host of the first run. *)
Theorem register_idempotent (h : host) (name : string) (cfg : value) :
  register name cfg (register name cfg h) = register name cfg h
  ∧ read_report name (register name cfg (register name cfg h)) = Some cfg
  ∧ read_report name (register name cfg h) = Some cfg
  ∧ load_module (load_module h) = load_module h.
Proof.
  assert (Htwice : ∀ c, register name c (register name c h) = register name c h).
  { intros c. unfold register; simpl. f_equal. apply insert_insert_eq. }
  assert (Hread : read_report name (register name cfg h) = Some cfg).
  { unfold read_report, register; simpl. apply lookup_insert_eq. }
  split; [apply Htwice |].
  split; [now rewrite Htwice |].
  split; [exact Hread |].
  unfold load_module, register; simpl. f_equal. apply insert_insert_eq.
Qed.

(** * Values taken from the host *)

(** C5, as the code has it: the default of the "company" filter is what
    frappe.defaults.get_user_default("Company") returned when the script
    ran.  It is stored in the descriptor, and as long as the registry
    entry is the one the script made, the host reads that value, whatever
    the user's default is by then. *)
Theorem company_default_fixed_at_load (h h' : host) :
  read_report report_name h' = read_report report_name (load_module h) ->
  company_default_at h' = Some (get_user_default h "Company").
Proof.
  intros Hkept. unfold company_default_at, filter_attr.
  now rewrite (registered_filters_kept h h' Hkept).
Qed.

Lemma company_default_fixed_at_load_witness :
  read_report report_name session_b
    = read_report report_name (load_module session_a)
  ∧ company_default_at session_b = Some (VStr "Alpha Ltd").
Proof.
  split; [reflexivity |].
  apply (company_default_fixed_at_load session_a session_b). reflexivity.
Defined.

(** C5, as the specification words it, fails on the code: in session B
    the registry holds what the script registered in session A, the
    user's default company is "Beta Ltd", and the filter's default still
    reads "Alpha Ltd". *)
Lemma default_resolved_at_render_fails :
  query_reports session_b = query_reports (load_module session_a)
  ∧ get_user_default session_b "Company" = VStr "Beta Ltd"
  ∧ company_default_at session_b = Some (VStr "Alpha Ltd")
  ∧ ¬ default_resolved_at_render session_b.
Proof.
  split; [reflexivity |]. split; [reflexivity |].
  assert (Hread : company_default_at session_b = Some (VStr "Alpha Ltd"))
    by (vm_compute; reflexivity).
  split; [exact Hread |].
  unfold default_resolved_at_render. rewrite Hread. discriminate.
Qed.

(** C6, as the code has it: the label of each filter is what the
    localization function [__] returned for "Company" and for "Show
    Disabled Warehouses" when the script ran.  The results are stored in
    the descriptors, and as long as the registry entry is the one the
    script made, the host reads those, whatever the translations are by
    then. *)
Theorem labels_fixed_at_load (h h' : host) :
  read_report report_name h' = read_report report_name (load_module h) ->
  labels_at h' = [translate h "Company"; translate h "Show Disabled Warehouses"].
Proof.
  intros Hkept. unfold labels_at.
  now rewrite (registered_filters_kept h h' Hkept).
Qed.

Lemma labels_fixed_at_load_witness :
  read_report report_name session_b
    = read_report report_name (load_module session_a)
  ∧ labels_at session_b = [VStr "Company"; VStr "Show Disabled Warehouses"].
Proof.
  split; [reflexivity |].
  apply (labels_fixed_at_load session_a session_b). reflexivity.
Defined.

(** C6, as the specification words it, fails on the code: in session B
    the localization of "Company" is "Firma", and the registered label
    still reads "Company", as resolved in session A. *)
Lemma labels_resolved_at_render_fails :
  query_reports session_b = query_reports (load_module session_a)
  ∧ translate session_b "Company" = VStr "Firma"
  ∧ labels_at session_b = [VStr "Company"; VStr "Show Disabled Warehouses"]
  ∧ ¬ labels_resolved_at_render session_b.
Proof.
  split; [reflexivity |]. split; [reflexivity |].
  assert (Hread : labels_at session_b
                  = [VStr "Company"; VStr "Show Disabled Warehouses"])
    by (vm_compute; reflexivity).
  split; [exact Hread |].
  unfold labels_resolved_at_render. rewrite Hread. discriminate.
Qed.

(** * Further properties of the script *)

(** X1: the assignment overwrites.  Whatever was registered under the
    report name before, the host after the script is the one it would be
    had nothing been registered; the earlier entry leaves no trace. *)
Theorem load_module_overwrites (h : host) (cfg0 : value) :
  load_module (register report_name cfg0 h) = load_module h
  ∧ read_report report_name (load_module (register report_name cfg0 h))
    = Some (report_config h).
Proof.
  assert (Hsame : load_module (register report_name cfg0 h) = load_module h).
  { unfold load_module, register; simpl. f_equal. apply insert_insert_eq. }
  split; [exact Hsame |].
  rewrite Hsame. apply load_module_registers.
Qed.

(** X2: the script and the registration of any other report do not
    depend on each other's order: with [cfg] registered under another
    name before the script runs or after it, every name of the registry
    reads the same, and so do the translations and the user defaults. *)
Theorem load_module_commutes_reads
    (h : host) (name : string) (cfg : value) (n : string) :
  name ≠ report_name ->
  read_report n (load_module (register name cfg h))
    = read_report n (register name cfg (load_module h))
  ∧ translate (load_module (register name cfg h))
    = translate (register name cfg (load_module h))
  ∧ get_user_default (load_module (register name cfg h))
    = get_user_default (register name cfg (load_module h)).
Proof.
  intros Hne. split; [| split; reflexivity].
  unfold read_report, load_module, register; simpl.
  destruct (decide (n = report_name)) as [-> | Hn].
  - rewrite lookup_insert_eq, lookup_insert_ne by done.
    now rewrite lookup_insert_eq.
  - rewrite lookup_insert_ne by done.
    destruct (decide (n = name)) as [-> | Hn'].
    + now rewrite !lookup_insert_eq.
    + now rewrite !lookup_insert_ne by done.
Qed.

Lemma load_module_commutes_reads_witness :
  "Stock Balance" ≠ report_name
  ∧ read_report "Stock Balance"
      (load_module (register "Stock Balance" (VObj []) session_a))
    = read_report "Stock Balance"
        (register "Stock Balance" (VObj []) (load_module session_a)).
Proof.
  assert (Hne : "Stock Balance" ≠ report_name) by discriminate.
  split; [exact Hne |].
  exact (proj1 (load_module_commutes_reads
                  session_a "Stock Balance" (VObj []) "Stock Balance" Hne)).
Defined.

(** X3: the script adds the report name to the names of the registry and
    no other name; the registry grows by one entry when the name was
    free and keeps its size when the name was taken. *)
Theorem load_module_names (h : host) :
  dom (query_reports (load_module h)) = {[report_name]} ∪ dom (query_reports h)
  ∧ size (query_reports (load_module h))
    = match read_report report_name h with
      | None => S (size (query_reports h))
      | Some _ => size (query_reports h)
      end.
Proof.
  unfold load_module, register, read_report; simpl.
  split; [apply dom_insert_L |].
  destruct (query_reports h !! report_name) as [old|] eqn:Hold.
  - rewrite <- (insert_id _ _ _ Hold) at 2.
    rewrite <- (insert_delete_eq (query_reports h)).
    rewrite <- (insert_delete_eq (query_reports h) report_name old).
    rewrite !map_size_insert_None by apply lookup_delete_eq.
    reflexivity.
  - now apply map_size_insert_None.
Qed.

(** X4: the configuration depends on the host through three answers only:
    the translations of "Company" and of "Show Disabled Warehouses" and
    the user's default for "Company".  Two hosts build the same
    configuration exactly when they agree on these three. *)
Theorem report_config_host_dependence (h1 h2 : host) :
  report_config h1 = report_config h2
  ↔ translate h1 "Company" = translate h2 "Company"
    ∧ translate h1 "Show Disabled Warehouses"
      = translate h2 "Show Disabled Warehouses"
    ∧ get_user_default h1 "Company" = get_user_default h2 "Company".
Proof.
  unfold report_config, company_filter, show_disabled_warehouses_filter,
    literal; simpl.
  split.
  - intros Heq. injection Heq as Hl1 Hd Hl2. auto.
  - intros (-> & -> & ->). reflexivity.
Qed.

(** X5: every filter of the registered configuration has the properties
    fieldname, label, fieldtype and default, whatever the host answered
    (a default that came back undefined is still a property), and its
    fieldname is a non-empty string. *)
Theorem filters_well_formed (h : host) (f : value) :
  f ∈ registered_filters (load_module h) ->
  (∃ s, get "fieldname" f = VStr s ∧ s ≠ EmptyString)
  ∧ has_own "label" f = true
  ∧ has_own "fieldtype" f = true
  ∧ has_own "default" f = true.
Proof.
  rewrite registered_filters_load. intros Hf.
  apply elem_of_cons in Hf as [-> | Hf];
    [| apply elem_of_cons in Hf as [-> | Hf]; [| now apply elem_of_nil in Hf]].
  - split; [exists "company"; split; [reflexivity | discriminate] |].
    repeat split.
  - split; [exists "show_disabled_warehouses"; split; [reflexivity | discriminate] |].
    repeat split.
Qed.

Lemma filters_well_formed_witness :
  company_filter session_b ∈ registered_filters (load_module session_b)
  ∧ has_own "default" (company_filter session_b) = true.
Proof.
  assert (Hin : company_filter session_b
                  ∈ registered_filters (load_module session_b)).
  { vm_compute. apply list_elem_of_here. }
  split; [exact Hin |].
  destruct (filters_well_formed session_b _ Hin) as (_ & _ & _ & Hdef).
  exact Hdef.
Defined.

(** X6: the registered configuration has the properties filters,
    initial_depth, tree, parent_field and name_field, in this order, and
    no other; its "company" filter has fieldname, label, fieldtype,
    options, reqd and default, in this order, and no other. *)
Theorem config_keys (h : host) :
  ∃ cfg f1,
    read_report report_name (load_module h) = Some cfg
    ∧ registered_filters (load_module h) !! 0%nat = Some f1
    ∧ keys cfg
      = ["filters"; "initial_depth"; "tree"; "parent_field"; "name_field"]
    ∧ keys f1
      = ["fieldname"; "label"; "fieldtype"; "options"; "reqd"; "default"].
Proof.
  exists (report_config h), (company_filter h).
  split; [apply load_module_registers |].
  split; [now rewrite registered_filters_load |].
  split; reflexivity.
Qed.
